(** * wordgrid leaderboard server: a shallow embedding of [server/main.py]

    The server has two Flask routes.  [add_score] validates a parsed JSON
    body and inserts one document in the [leaderboard] collection;
    [get_leaderboard] returns the documents of one date, ascending by
    score.  Python values are modelled by the inductive [json], the
    handlers by a state-and-exception monad over the collection. *)

From stdpp Require Import gmap strings list fin_maps sorting.

Set Warnings "-register-all".

Local Open Scope Z_scope.

(** ** Python values produced by [request.get_json()] *)

(** A Python [str] is a sequence of characters; [len] counts them and [==]
    compares them one by one, which is all the handlers use.  A [float]
    is kept as its binary64 bit pattern: no handler computes with it. *)
Inductive json : Type :=
  | JNull
  | JBool (b : bool)
  | JInt (n : Z)
  | JFloat (bits : Z)
  | JStr (s : string)
  | JArr (l : list json)
  | JObj (m : gmap string json).

(** The exceptions the handlers can raise. *)
Inductive pyexn : Type :=
  | TypeError
  | KeyError.

Inductive res (A : Type) : Type :=
  | Ok (a : A)
  | Raise (e : pyexn).
Arguments Ok {A} a.
Arguments Raise {A} e.

(** ** The collection *)

(** A stored document: the [_id] that [insert_one] generates, and the
    fields of the inserted dict. *)
Record stored : Type := Stored { oid : N; fields : gmap string json }.

Abbreviation store := (list stored).

(** ** The handler monad: collection state and Python exceptions *)

Definition M (A : Type) : Type := store → res A * store.

Definition ret {A : Type} (a : A) : M A := λ st, (Ok a, st).

Definition raise {A : Type} (e : pyexn) : M A := λ st, (Raise e, st).

Definition bind {A B : Type} (m : M A) (k : A → M B) : M B := λ st,
  match m st with
  | (Ok a, st') => k a st'
  | (Raise e, st') => (Raise e, st')
  end.

Notation "'let*' x := m 'in' k" := (bind m (λ x, k))
  (at level 10, x name, m at level 100, k at level 200,
   format "'[v' 'let*'  x  :=  m  'in' '/' k ']'").

(** Python's short-circuit [a and b] and [a or b] on booleans. *)
Definition py_and (a b : M bool) : M bool :=
  let* x := a in if x then b else ret false.

Definition py_or (a b : M bool) : M bool :=
  let* x := a in if x then ret true else b.

(** ** Python operators used by the handlers *)

(** [needle in hay] on two [str]: substring test. *)
Fixpoint str_contains (needle hay : string) : bool :=
  String.prefix needle hay ||
  match hay with
  | EmptyString => false
  | String _ hay' => str_contains needle hay'
  end.

(** [v == s] for a [str] literal [s]: only an equal [str] is equal. *)
Definition py_eq_str (v : json) (s : string) : bool :=
  match v with
  | JStr s' => bool_decide (s' = s)
  | _ => false
  end.

(** [k in data]: key membership on a dict, element membership on a list,
    substring on a str, [TypeError] on anything else. *)
Definition py_in (k : string) (data : json) : M bool :=
  match data with
  | JObj m => ret (bool_decide (is_Some (m !! k)))
  | JArr l => ret (existsb (λ v, py_eq_str v k) l)
  | JStr s => ret (str_contains k s)
  | JNull | JBool _ | JInt _ | JFloat _ => raise TypeError
  end.

(** [data[k]] for a [str] key [k]. *)
Definition py_getitem (data : json) (k : string) : M json :=
  match data with
  | JObj m =>
      match m !! k with
      | Some v => ret v
      | None => raise KeyError
      end
  | _ => raise TypeError
  end.

(** [isinstance(v, str)]. *)
Definition isinstance_str (v : json) : bool :=
  match v with
  | JStr _ => true
  | _ => false
  end.

(** [isinstance(v, int)]: [bool] is a subclass of [int] in Python. *)
Definition isinstance_int (v : json) : bool :=
  match v with
  | JInt _ | JBool _ => true
  | _ => false
  end.

(** [len(v)]. *)
Definition py_len (v : json) : M Z :=
  match v with
  | JStr s => ret (Z.of_nat (String.length s))
  | JArr l => ret (Z.of_nat (List.length l))
  | JObj m => ret (Z.of_nat (size m))
  | JNull | JBool _ | JInt _ | JFloat _ => raise TypeError
  end.

(** ** Flask replies *)

(** What a view function returns: [jsonify(body), status]. *)
Record reply : Type := Reply { status : Z; body : json }.

Definition jsonify_error (reason : string) : json :=
  JObj {[ "error" := JStr reason ]}.

Definition jsonify_message (text : string) : json :=
  JObj {[ "message" := JStr text ]}.

(** What the client sees: the view's reply, or the framework's generic
    500 page when the view raised. *)
Inductive outcome : Type :=
  | Replied (r : reply)
  | ServerError (e : pyexn).

Definition status_code (o : outcome) : Z :=
  match o with
  | Replied r => status r
  | ServerError _ => 500
  end.

Definition dispatch (view : M reply) (st : store) : outcome * store :=
  match view st with
  | (Ok r, st') => (Replied r, st')
  | (Raise e, st') => (ServerError e, st')
  end.

(** ** The persistence collaborator *)

(** Modelled from the spec: the document store behind
    [leaderboard_collection] (MongoDB through pymongo) is not part of the
    repository; the spec gives its interface as [insert_one(document)]
    and [find(filter: {date}, projection: exclude internal id)] returning
    the documents ordered by ascending score.  The collection is the list
    of its documents in insertion order; failures of the store itself are
    outside the model. *)
Definition fresh_oid (st : store) : N :=
  N.succ (foldr N.max 0%N (oid <$> st)).

Definition insert_one (doc : gmap string json) : M unit :=
  λ st, (Ok (), st ++ [Stored (fresh_oid st) doc]).

(** The filter [{"date": date}]: the document's [date] field is that string. *)
Definition date_is (date : string) (d : stored) : bool :=
  match fields d !! "date" with
  | Some v => py_eq_str v date
  | None => false
  end.

(** The projection [{"_id": 0}]: everything but the identifier. *)
Definition without_id (d : stored) : gmap string json := fields d.

Section Cursor.

(** The store's ascending order on the values of a sort key ([None]:
    the document has no such field).  The spec fixes it on integers
    only, so it is a parameter of the model. *)
Variable key_leb : option json → option json → bool.

Definition doc_leb (k : string) (a b : gmap string json) : bool :=
  key_leb (a !! k) (b !! k).

Fixpoint insert_sorted (k : string) (d : gmap string json)
    (l : list (gmap string json)) : list (gmap string json) :=
  match l with
  | [] => [d]
  | d' :: l' =>
      if doc_leb k d d' then d :: d' :: l'
      else d' :: insert_sorted k d l'
  end.

(** [cursor.sort(k, 1)] *)
Definition sort_ascending (k : string) (l : list (gmap string json))
    : list (gmap string json) :=
  foldr (insert_sorted k) [] l.

(** [list(collection.find({"date": date}, {"_id": 0}).sort("score", 1))] *)
Definition find_by_date (date : string) : M (list (gmap string json)) :=
  λ st, (Ok (sort_ascending "score" (without_id <$> List.filter (date_is date) st)), st).

(** ** [get_leaderboard] (main.py, lines 19-24) *)
Definition get_leaderboard (date : string) : M reply :=
  let* leaderboard := find_by_date date in
  ret (Reply 200 (JArr (JObj <$> leaderboard))).

End Cursor.

(** ** [add_score] (main.py, lines 27-52) *)
Definition add_score (data : json) : M reply :=
  let* present :=
    py_and (py_in "name" data)
      (py_and (py_in "score" data) (py_in "date" data)) in
  if present then
    let* bad_types :=
      py_or (let* v := py_getitem data "name" in ret (negb (isinstance_str v)))
        (py_or (let* v := py_getitem data "score" in ret (negb (isinstance_int v)))
               (let* v := py_getitem data "date" in ret (negb (isinstance_str v)))) in
    if bad_types then ret (Reply 400 (jsonify_error "Invalid data types!"))
    else
      let* empty :=
        py_or (let* v := py_getitem data "name" in ret (py_eq_str v ""))
              (let* v := py_getitem data "date" in ret (py_eq_str v "")) in
      if empty then ret (Reply 400 (jsonify_error "Name and date cannot be empty!"))
      else
        let* name_len := bind (py_getitem data "name") py_len in
        if 50 <? name_len then ret (Reply 400 (jsonify_error "Name is too long!"))
        else
          let* date_len := bind (py_getitem data "date") py_len in
          if 10 <? date_len then ret (Reply 400 (jsonify_error "Date is too long!"))
          else
            let* name := py_getitem data "name" in
            let* score := py_getitem data "score" in
            let* date := py_getitem data "date" in
            let* _ := insert_one {[ "name" := name; "score" := score; "date" := date ]} in
            ret (Reply 201 (jsonify_message "Score added successfully!"))
  else ret (Reply 400 (jsonify_error "Invalid data!")).

(** The two routes as the client sees them. *)
Definition post_leaderboard (data : json) (st : store) : outcome * store :=
  dispatch (add_score data) st.

Definition get_leaderboard_route (key_leb : option json → option json → bool)
    (date : string) (st : store) : outcome * store :=
  dispatch (get_leaderboard key_leb date) st.

(** ** The validation checks *)

(** The five checks of the Submit Score operation, read on a JSON object
    through its fields.  [check_holds] gives each check as the handler
    tests it: its [FieldTypes] is the handler's [isinstance(…, int)],
    which a boolean score passes.  The checks as the spec words them,
    with an integer score that is no boolean, are [spec_check_holds]
    below. *)
Inductive check : Type :=
  | FieldsPresent
  | FieldTypes
  | NonEmpty
  | NameLength
  | DateLength.

Definition field_is (P : json → bool) (k : string) (d : gmap string json) : bool :=
  match d !! k with
  | Some v => P v
  | None => false
  end.

Definition text_field (k : string) (d : gmap string json) : option string :=
  match d !! k with
  | Some (JStr s) => Some s
  | _ => None
  end.

Definition text_within (bound : Z) (k : string) (d : gmap string json) : bool :=
  match text_field k d with
  | Some s => Z.of_nat (String.length s) <=? bound
  | None => true
  end.

Definition text_nonempty (k : string) (d : gmap string json) : bool :=
  match text_field k d with
  | Some EmptyString => false
  | _ => true
  end.

Definition check_holds (c : check) (d : gmap string json) : bool :=
  match c with
  | FieldsPresent =>
      bool_decide (is_Some (d !! "name")) && bool_decide (is_Some (d !! "score"))
      && bool_decide (is_Some (d !! "date"))
  | FieldTypes =>
      field_is isinstance_str "name" d && field_is isinstance_int "score" d
      && field_is isinstance_str "date" d
  | NonEmpty => text_nonempty "name" d && text_nonempty "date" d
  | NameLength => text_within 50 "name" d
  | DateLength => text_within 10 "date" d
  end.

Definition check_error (c : check) : string :=
  match c with
  | FieldsPresent => "Invalid data!"
  | FieldTypes => "Invalid data types!"
  | NonEmpty => "Name and date cannot be empty!"
  | NameLength => "Name is too long!"
  | DateLength => "Date is too long!"
  end.

Definition checks_in_order : list check :=
  [FieldsPresent; FieldTypes; NonEmpty; NameLength; DateLength].

(** The first check, in the stated order, that the body fails. *)
Definition first_failure (d : gmap string json) : option check :=
  List.find (λ c, negb (check_holds c d)) checks_in_order.

Definition all_checks (d : gmap string json) : bool :=
  forallb (λ c, check_holds c d) checks_in_order.

(** The reply the spec's table prescribes for a body. *)
Definition prescribed_reply (d : gmap string json) : reply :=
  match first_failure d with
  | Some c => Reply 400 (jsonify_error (check_error c))
  | None => Reply 201 (jsonify_message "Score added successfully!")
  end.

(** The ScoreEntry a body submits: its three fields and nothing else. *)
Definition entry_of (d : gmap string json) : gmap string json :=
  filter (λ kv, kv.1 ∈ ["name"; "score"; "date"]) d.

(** A JSON integer, as the data model means it: not a boolean. *)
Definition is_integer (v : json) : bool :=
  match v with
  | JInt _ => true
  | _ => false
  end.

(** The five checks as the spec words them: check 2 asks for a text
    name, an integer score (a boolean or floating value is rejected) and
    a text date. *)
Definition spec_check_holds (c : check) (d : gmap string json) : bool :=
  match c with
  | FieldsPresent =>
      bool_decide (is_Some (d !! "name")) && bool_decide (is_Some (d !! "score"))
      && bool_decide (is_Some (d !! "date"))
  | FieldTypes =>
      field_is isinstance_str "name" d && field_is is_integer "score" d
      && field_is isinstance_str "date" d
  | NonEmpty => text_nonempty "name" d && text_nonempty "date" d
  | NameLength => text_within 50 "name" d
  | DateLength => text_within 10 "date" d
  end.

(** The first of the spec's checks, in the stated order, that a body
    fails. *)
Definition spec_first_failure (d : gmap string json) : option check :=
  List.find (λ c, negb (spec_check_holds c d)) checks_in_order.

(** The body's [score] is a JSON boolean. *)
Definition boolean_score (d : gmap string json) : bool :=
  match d !! "score" with
  | Some (JBool _) => true
  | _ => false
  end.


(** One order the store may use: integers ascending, before any other key. *)
Definition int_keys_first (a b : option json) : bool :=
  match a, b with
  | Some (JInt x), Some (JInt y) => x <=? y
  | Some (JInt _), _ => true
  | _, Some (JInt _) => false
  | _, _ => true
  end.

(** What the model asks of the store's order. *)
Class ScoreOrder (key_leb : option json → option json → bool) : Prop := {
  key_leb_total : ∀ a b, key_leb a b = true ∨ key_leb b a = true;
  key_leb_trans : ∀ a b c, key_leb a b = true → key_leb b c = true → key_leb a c = true;
  key_leb_int : ∀ x y, key_leb (Some (JInt x)) (Some (JInt y)) = (x <=? y)
}.

(** A stored entry of a given date: its [date] field is exactly that text. *)
Definition has_date (date : string) (d : stored) : Prop :=
  fields d !! "date" = Some (JStr date).

#[global] Instance has_date_dec (date : string) (d : stored) :
  Decision (has_date date d).
Proof.
  unfold has_date. destruct (fields d !! "date") as [[| | | |s| |]|].
  5: destruct (decide (s = date)) as [->|Hne].
  5: by left.
  all: right; congruence.
Defined.

(** The data model's invariant on one entry. *)
Definition text_between (lo hi : Z) (k : string) (e : gmap string json) : Prop :=
  ∃ s, e !! k = Some (JStr s) ∧ lo ≤ Z.of_nat (String.length s) ≤ hi.

Definition entry_invariant (e : gmap string json) : Prop :=
  text_between 1 50 "name" e ∧ text_between 1 10 "date" e
  ∧ ∃ n, e !! "score" = Some (JInt n).

(** The same with the score as the handler checks it. *)
Definition entry_accepted (e : gmap string json) : Prop :=
  text_between 1 50 "name" e ∧ text_between 1 10 "date" e
  ∧ ∃ v, e !! "score" = Some v ∧ isinstance_int v = true.

(** [e] occurs exactly once in [l]. *)
Definition occurs_once {A : Type} (e : A) (l : list A) : Prop :=
  ∃ l1 l2 : list A, l = l1 ++ e :: l2 ∧ (e ∉ l1) ∧ (e ∉ l2).

(** The three field names all occur, by the membership test [mem]. *)
Definition names_in (mem : string → bool) : bool :=
  mem "name" && mem "score" && mem "date".

(** ** The application: its two routes and its configuration *)

(** A request the application routes (main.py, lines 19 and 27). *)
Inductive request : Type :=
  | GetLeaderboard (date : string)
  | PostLeaderboard (data : json).

Definition handle (key_leb : option json → option json → bool)
    (r : request) (st : store) : outcome * store :=
  match r with
  | GetLeaderboard date => get_leaderboard_route key_leb date st
  | PostLeaderboard data => post_leaderboard data st
  end.

(** The collection after a run of requests, served one after the other. *)
Definition run (key_leb : option json → option json → bool)
    (rs : list request) (st : store) : store :=
  foldl (λ s r, (handle key_leb r s).2) st rs.

(** The entry a request leaves in the collection, if any. *)
Definition stored_entry (r : request) : option (gmap string json) :=
  match r with
  | PostLeaderboard (JObj d) => if all_checks d then Some (entry_of d) else None
  | _ => None
  end.

(** [os.getenv(name, fallback)] on an environment. *)
Definition getenv (env : gmap string string) (name fallback : string) : string :=
  default fallback (env !! name).

(** [mongo_uri] (main.py, line 13). *)
Definition mongo_uri (env : gmap string string) : string :=
  getenv env "MONGO_URI" "mongodb://localhost:27017/wordgrid".

(** [debug] (main.py, line 57). *)
Definition debug (env : gmap string string) : bool :=
  bool_decide (getenv env "DEBUG" "True" = "True").

(** [k] occurs in [s]: some text before it, some text after it. *)
Definition substring_of (k s : string) : Prop := ∃ a b, s = a +:+ k +:+ b.

(** ** Sample requests and stores *)

Definition empty_name_boolean_score : gmap string json :=
  {[ "name" := JStr ""; "score" := JBool true; "date" := JStr "2024-01-01" ]}.

(** A body whose [score] is the JSON boolean [true]. *)
Definition boolean_score_body : gmap string json :=
  {[ "name" := JStr "Al"; "score" := JBool true; "date" := JStr "2024-01-01" ]}.

Definition long_name_no_date : gmap string json :=
  {[ "name" := JStr "123456789012345678901234567890123456789012345678901";
     "score" := JInt 3 ]}.

Definition name_of_51 : gmap string json :=
  {[ "name" := JStr "123456789012345678901234567890123456789012345678901";
     "score" := JInt 3; "date" := JStr "2024-01-01" ]}.

Definition al_10_with_extra : gmap string json :=
  {[ "name" := JStr "Al"; "score" := JInt 10; "date" := JStr "2024-01-01";
     "client" := JStr "web" ]}.

(** The store after Al's 10 and Bo's 5 on 2024-01-01, and Cy's 7 a day
    later. *)
Definition al_10 : gmap string json :=
  {[ "name" := JStr "Al"; "score" := JInt 10; "date" := JStr "2024-01-01" ]}.

Definition bo_5 : gmap string json :=
  {[ "name" := JStr "Bo"; "score" := JInt 5; "date" := JStr "2024-01-01" ]}.

Definition cy_7 : gmap string json :=
  {[ "name" := JStr "Cy"; "score" := JInt 7; "date" := JStr "2024-01-02" ]}.

Definition three_scores : store :=
  [Stored 1 al_10; Stored 2 bo_5; Stored 3 cy_7].

(** * Properties *)

(** ** [add_score] on a JSON object *)

Lemma entry_of_fields (d : gmap string json) (n s t : json) :
  d !! "name" = Some n → d !! "score" = Some s → d !! "date" = Some t →
  entry_of d = {[ "name" := n; "score" := s; "date" := t ]}.
Proof.
  intros Hn Hs Ht. apply map_eq; intros k. apply option_eq; intros v.
  unfold entry_of. rewrite map_lookup_filter_Some. cbn [fst].
  rewrite !elem_of_cons, elem_of_nil.
  destruct (decide (k = "name")) as [->|Nn].
  { rewrite lookup_insert_eq, Hn. intuition. }
  rewrite lookup_insert_ne by done.
  destruct (decide (k = "score")) as [->|Ns].
  { rewrite lookup_insert_eq, Hs. intuition. }
  rewrite lookup_insert_ne by done.
  destruct (decide (k = "date")) as [->|Nd].
  { rewrite lookup_singleton_eq, Ht. intuition. }
  rewrite lookup_singleton_ne by done. intuition congruence.
Qed.

(** [add_score] on a JSON object: the reply of the first failing check,
    or the insert of the three submitted fields. *)
Lemma add_score_obj (d : gmap string json) (st : store) :
  add_score (JObj d) st =
    match first_failure d with
    | Some c => (Ok (Reply 400 (jsonify_error (check_error c))), st)
    | None =>
        (Ok (Reply 201 (jsonify_message "Score added successfully!")),
         st ++ [Stored (fresh_oid st) (entry_of d)])
    end.
Proof.
  cbv [add_score first_failure checks_in_order List.find check_holds field_is
       text_nonempty text_within text_field py_and py_or py_in py_getitem].
  destruct (d !! "name") as [n|] eqn:Hn; [|reflexivity].
  destruct (d !! "score") as [s|] eqn:Hs; [|reflexivity].
  destruct (d !! "date") as [t|] eqn:Ht; [|reflexivity].
  rewrite (entry_of_fields d n s t Hn Hs Ht).
  destruct n as [| | | |sn| |]; try reflexivity.
  destruct t as [| | | |sd| |]; try (by destruct s).
  assert (Hty : isinstance_int s = true ∨ isinstance_int s = false)
    by (destruct (isinstance_int s); auto).
  destruct Hty as [Hty|Hty]; [|by destruct s].
  cbv [bind ret py_len py_eq_str isinstance_str negb andb].
  rewrite !(bool_decide_eq_true_2 (is_Some (Some _))) by eauto.
  rewrite Hty.
  destruct sn as [|a sn]; [reflexivity|].
  destruct sd as [|b sd]; [reflexivity|].
  rewrite !bool_decide_eq_false_2 by done.
  rewrite !Z.leb_antisym.
  destruct (50 <? _); [reflexivity|].
  destruct (10 <? _); reflexivity.
Qed.

Lemma dispatch_add_score_obj (d : gmap string json) (st : store) :
  post_leaderboard (JObj d) st =
    (Replied (prescribed_reply d),
     match first_failure d with
     | Some _ => st
     | None => st ++ [Stored (fresh_oid st) (entry_of d)]
     end).
Proof.
  unfold post_leaderboard, dispatch, prescribed_reply.
  rewrite add_score_obj. by destruct (first_failure d).
Qed.

Lemma find_negb_forallb {A : Type} (f : A → bool) (l : list A) :
  forallb f l = true ↔ List.find (λ x, negb (f x)) l = None.
Proof.
  induction l as [|x l IH]; cbn [forallb List.find]; [done|].
  destruct (f x); cbn [negb andb]; [exact IH|done].
Qed.

Lemma all_checks_no_failure (d : gmap string json) :
  all_checks d = true ↔ first_failure d = None.
Proof. apply find_negb_forallb. Qed.

Lemma check_fails_first_failure (d : gmap string json) (c : check) :
  check_holds c d = false → ∃ c', first_failure d = Some c'.
Proof.
  intros Hc. destruct (first_failure d) as [c'|] eqn:Hf; [by exists c'|].
  apply all_checks_no_failure in Hf. unfold all_checks in Hf.
  rewrite forallb_forall in Hf. specialize (Hf c).
  rewrite Hf in Hc; [done|]. unfold checks_in_order.
  destruct c; cbn; tauto.
Qed.

(** *** Bodies that are not JSON objects *)

Lemma add_score_scalar (data : json) (st : store) :
  match data with JNull | JBool _ | JInt _ | JFloat _ => True | _ => False end →
  add_score data st = (Raise TypeError, st).
Proof. by destruct data. Qed.

Lemma add_score_array (l : list json) (st : store) :
  add_score (JArr l) st =
    if names_in (λ k, existsb (λ v, py_eq_str v k) l)
    then (Raise TypeError, st)
    else (Ok (Reply 400 (jsonify_error "Invalid data!")), st).
Proof.
  cbv [add_score names_in py_and py_or py_in py_getitem bind ret raise].
  destruct (existsb _ l); [|reflexivity].
  destruct (existsb _ l); [|reflexivity].
  destruct (existsb _ l); reflexivity.
Qed.

Lemma add_score_text (s : string) (st : store) :
  add_score (JStr s) st =
    if names_in (λ k, str_contains k s)
    then (Raise TypeError, st)
    else (Ok (Reply 400 (jsonify_error "Invalid data!")), st).
Proof.
  cbv [add_score names_in py_and py_or py_in py_getitem bind ret raise].
  destruct (str_contains "name" s); [|reflexivity].
  destruct (str_contains "score" s); [|reflexivity].
  destruct (str_contains "date" s); reflexivity.
Qed.

(** *** The store only grows, and only on a 201 *)

Lemma add_score_store (data : json) (st : store) :
  (post_leaderboard data st).2 = st ∨
  ∃ d, data = JObj d ∧ all_checks d = true ∧
       post_leaderboard data st =
         (Replied (Reply 201 (jsonify_message "Score added successfully!")),
          st ++ [Stored (fresh_oid st) (entry_of d)]).
Proof.
  destruct data as [| | | |s|l|d].
  1-4: by left; unfold post_leaderboard, dispatch; rewrite add_score_scalar.
  - left. unfold post_leaderboard, dispatch. rewrite add_score_text.
    by destruct (names_in _).
  - left. unfold post_leaderboard, dispatch. rewrite add_score_array.
    by destruct (names_in _).
  - rewrite dispatch_add_score_obj. unfold prescribed_reply.
    destruct (first_failure d) eqn:Hf; [by left|right].
    exists d. by rewrite all_checks_no_failure.
Qed.

(** *** Fresh identifiers *)

Lemma fresh_oid_above (st : store) (d : stored) :
  d ∈ st → (oid d < fresh_oid st)%N.
Proof.
  unfold fresh_oid. induction st as [|x st IH]; [by rewrite elem_of_nil|].
  rewrite elem_of_cons. cbn [fmap list_fmap foldr]. intros [->|Hd]; [lia|].
  specialize (IH Hd). lia.
Qed.

Lemma fresh_oid_grows (st : store) (doc : gmap string json) :
  (fresh_oid st < fresh_oid (st ++ [Stored (fresh_oid st) doc]))%N.
Proof.
  apply (fresh_oid_above _ (Stored (fresh_oid st) doc)).
  rewrite elem_of_app, list_elem_of_singleton. by right.
Qed.

(** ** The cursor *)

Lemma date_is_has_date (date : string) (d : stored) :
  date_is date d = true ↔ has_date date d.
Proof.
  unfold date_is, has_date, py_eq_str.
  destruct (fields d !! "date") as [[]|]; try (split; [done|congruence]).
  rewrite bool_decide_eq_true. split; congruence.
Qed.

Lemma filter_date_is (date : string) (st : store) :
  List.filter (date_is date) st = filter (has_date date) st.
Proof.
  induction st as [|d st IH]; [done|]. cbn [List.filter].
  rewrite filter_cons, IH.
  destruct (decide (has_date date d)) as [Hd|Hd].
  - apply date_is_has_date in Hd. by rewrite Hd.
  - destruct (date_is date d) eqn:E; [|done].
    by apply date_is_has_date in E.
Qed.

Section CursorFacts.

Context (key_leb : option json → option json → bool).

Lemma insert_sorted_perm (k : string) (d : gmap string json)
    (l : list (gmap string json)) :
  insert_sorted key_leb k d l ≡ₚ d :: l.
Proof.
  induction l as [|d' l IH]; cbn [insert_sorted]; [done|].
  destruct (doc_leb key_leb k d d'); [done|].
  rewrite IH. apply Permutation_swap.
Qed.

Lemma sort_ascending_perm (k : string) (l : list (gmap string json)) :
  sort_ascending key_leb k l ≡ₚ l.
Proof.
  unfold sort_ascending. induction l as [|d l IH]; cbn [foldr]; [done|].
  by rewrite insert_sorted_perm, IH.
Qed.

Lemma get_leaderboard_run (date : string) (st : store) :
  get_leaderboard_route key_leb date st =
    (Replied (Reply 200 (JArr (JObj <$>
       sort_ascending key_leb "score" (fields <$> filter (has_date date) st)))),
     st).
Proof.
  unfold get_leaderboard_route, dispatch, get_leaderboard, find_by_date, bind, ret.
  by rewrite filter_date_is.
Qed.

Context `{!ScoreOrder key_leb}.

Lemma insert_sorted_sorted (k : string) (d : gmap string json)
    (l : list (gmap string json)) :
  StronglySorted (λ a b, doc_leb key_leb k a b = true) l →
  StronglySorted (λ a b, doc_leb key_leb k a b = true) (insert_sorted key_leb k d l).
Proof.
  induction 1 as [|d' l Hl IH Hall]; cbn [insert_sorted].
  { repeat constructor. }
  destruct (doc_leb key_leb k d d') eqn:Hle.
  - constructor; [by constructor|]. constructor; [done|].
    eapply Forall_impl; [exact Hall|]. intros x Hx. cbv beta in Hx |- *.
    unfold doc_leb in *. by eapply key_leb_trans.
  - constructor; [done|]. rewrite insert_sorted_perm. constructor; [|done].
    unfold doc_leb in *.
    destruct (key_leb_total (d !! k) (d' !! k)); congruence.
Qed.

Lemma sort_ascending_sorted (k : string) (l : list (gmap string json)) :
  StronglySorted (λ a b, doc_leb key_leb k a b = true) (sort_ascending key_leb k l).
Proof.
  unfold sort_ascending. induction l as [|d l IH]; cbn [foldr]; [constructor|].
  by apply insert_sorted_sorted.
Qed.

End CursorFacts.

Lemma StronglySorted_lookup {A : Type} (R : A → A → Prop) (l : list A)
    (i j : nat) (a b : A) :
  StronglySorted R l → (i < j)%nat → l !! i = Some a → l !! j = Some b → R a b.
Proof.
  intros Hs. revert i j. induction Hs as [|x l Hl IH Hall]; intros i j Hij Hi Hj.
  { by rewrite lookup_nil in Hi. }
  destruct j as [|j]; [lia|]. cbn in Hj. destruct i as [|i].
  - cbn in Hi. injection Hi as ->.
    rewrite Forall_forall in Hall. apply Hall. by eapply list_elem_of_lookup_2.
  - cbn in Hi. apply (IH i j); [lia|done..].
Qed.

Lemma int_keys_first_order : ScoreOrder int_keys_first.
Proof.
  split.
  - intros [[]|] [[]|]; cbn; auto. lia.
  - intros [[]|] [[]|] [[]|]; cbn; try done. lia.
  - done.
Qed.

(** * The claims *)

(** ** Submit Score *)

Lemma boolean_score_run :
  post_leaderboard (JObj boolean_score_body) [] =
    (Replied (Reply 201 (jsonify_message "Score added successfully!")),
     [Stored 1 boolean_score_body]).
Proof. vm_compute. reflexivity. Qed.

(** C1: a boolean [score] should be rejected with the "invalid data types"
    error and nothing inserted.  The handler's [isinstance(…, int)] accepts
    it: the body is answered 201 and its document, boolean score included,
    is inserted. *)
Theorem add_score_accepts_boolean_score :
  is_integer (JBool true) = false ∧
  post_leaderboard (JObj boolean_score_body) [] =
    (Replied (Reply 201 (jsonify_message "Score added successfully!")),
     [Stored 1 boolean_score_body]).
Proof. split; [reflexivity|exact boolean_score_run]. Qed.

(** The rest of the type check is as the spec states it: a name or date
    that is not text, or a score that is neither integer nor boolean (a
    floating value, a string), gets the "invalid data types" error and no
    insert; fields of the right types get past this check. *)
Lemma add_score_type_check (d : gmap string json) (st : store) (n s t : json) :
  d !! "name" = Some n → d !! "score" = Some s → d !! "date" = Some t →
  (isinstance_str n && isinstance_int s && isinstance_str t = false →
   post_leaderboard (JObj d) st =
     (Replied (Reply 400 (jsonify_error "Invalid data types!")), st)) ∧
  (isinstance_str n && isinstance_int s && isinstance_str t = true →
   (post_leaderboard (JObj d) st).1
     ≠ Replied (Reply 400 (jsonify_error "Invalid data types!"))).
Proof.
  intros Hn Hs Ht. rewrite dispatch_add_score_obj.
  unfold prescribed_reply, first_failure, checks_in_order.
  cbn [List.find check_holds]. unfold field_is. rewrite Hn, Hs, Ht.
  rewrite !bool_decide_eq_true_2 by eauto. cbn [andb negb].
  split; intros Hty; rewrite Hty; cbn [negb]; [done|].
  repeat match goal with |- context [if ?b then _ else _] => destruct b end;
    cbn; intros H; by inversion H.
Qed.

Lemma float_is_not_int (bits : Z) : isinstance_int (JFloat bits) = false.
Proof. reflexivity. Qed.

Lemma spec_check_agrees (d : gmap string json) (c : check) :
  boolean_score d = false → spec_check_holds c d = check_holds c d.
Proof.
  intros Hb. destruct c; try reflexivity.
  cbn [spec_check_holds check_holds]. unfold field_is, boolean_score in *.
  destruct (d !! "score") as [[]|]; try reflexivity. discriminate Hb.
Qed.

Lemma spec_first_failure_agrees (d : gmap string json) :
  boolean_score d = false → spec_first_failure d = first_failure d.
Proof.
  intros Hb. unfold spec_first_failure, first_failure, checks_in_order.
  cbn [List.find]. by rewrite !(spec_check_agrees d _ Hb).
Qed.

(** C2 as the spec states it fails on two kinds of body.  JSON [null] has
    none of the three fields, yet it is answered by a server error and
    not by the 400 "Invalid data!" of the first check.  An empty name
    with a boolean score fails the type check first, yet it is answered
    with the error of the third check. *)
Lemma first_failing_check_not_decisive :
  (post_leaderboard JNull []).1 = ServerError TypeError
  ∧ (post_leaderboard JNull []).1
    ≠ Replied (Reply 400 (JObj {[ "error" := JStr "Invalid data!" ]}))
  ∧ spec_first_failure empty_name_boolean_score = Some FieldTypes
  ∧ (post_leaderboard (JObj empty_name_boolean_score) []).1
    = Replied (Reply 400 (JObj {[ "error" := JStr "Name and date cannot be empty!" ]}))
  ∧ (post_leaderboard (JObj empty_name_boolean_score) []).1
    ≠ Replied (Reply 400 (JObj {[ "error" := JStr "Invalid data types!" ]})).
Proof.
  split; [reflexivity|]. split; [intros H; discriminate H|].
  split; [reflexivity|].
  assert ((post_leaderboard (JObj empty_name_boolean_score) []).1
          = Replied (Reply 400 (JObj {[ "error" := JStr "Name and date cannot be empty!" ]})))
    as Hrun by (vm_compute; reflexivity).
  split; [exact Hrun|]. rewrite Hrun. intros H.
  apply (f_equal (λ o, match o with
                       | Replied (Reply _ (JObj m)) => m !! "error"
                       | _ => None
                       end)) in H.
  vm_compute in H. discriminate H.
Qed.

(** C2, amended: on every JSON object whose score is not a boolean the
    five checks are made in the stated order, with check 2 as the spec
    words it, and the first one that fails gives the 400 error; the reply
    is 201 only when none fails.  In particular a body without [date]
    gets the generic error whatever its name, and an empty name with an
    integer score and a text date gets the empty-name/date error. *)
Theorem add_score_first_spec_failure_decides (d : gmap string json) (st : store) :
  boolean_score d = false →
  (post_leaderboard (JObj d) st).1 =
    Replied
      match spec_first_failure d with
      | Some c => Reply 400 (JObj {[ "error" := JStr (check_error c) ]})
      | None => Reply 201 (JObj {[ "message" := JStr "Score added successfully!" ]})
      end
  ∧ (d !! "date" = None →
     (post_leaderboard (JObj d) st).1
       = Replied (Reply 400 (JObj {[ "error" := JStr "Invalid data!" ]})))
  ∧ (d !! "name" = Some (JStr "") → (∃ n, d !! "score" = Some (JInt n)) →
     (∃ t, d !! "date" = Some (JStr t)) →
     (post_leaderboard (JObj d) st).1
       = Replied (Reply 400 (JObj {[ "error" := JStr "Name and date cannot be empty!" ]}))).
Proof.
  intros Hb. rewrite dispatch_add_score_obj. cbn [fst].
  unfold prescribed_reply. rewrite <- (spec_first_failure_agrees d Hb).
  split; [by destruct (spec_first_failure d)|].
  unfold spec_first_failure, checks_in_order. split.
  - intros Hd. cbn [List.find spec_check_holds]. rewrite Hd.
    rewrite (bool_decide_eq_false_2 (is_Some None)) by (by intros [? ?]).
    by rewrite !andb_false_r.
  - intros Hn [n Hs] [t Ht]. cbn [List.find spec_check_holds].
    unfold field_is, text_nonempty, text_field. rewrite Hn, Hs, Ht.
    by rewrite !bool_decide_eq_true_2 by eauto.
Qed.

Lemma add_score_first_spec_failure_decides_witness :
  boolean_score long_name_no_date = false
  ∧ spec_check_holds NameLength long_name_no_date = false
  ∧ (post_leaderboard (JObj long_name_no_date) []).1
    = Replied (Reply 400 (JObj {[ "error" := JStr "Invalid data!" ]})).
Proof.
  split; [reflexivity|]. split; [reflexivity|].
  apply (add_score_first_spec_failure_decides long_name_no_date [] eq_refl).
  reflexivity.
Defined.

(** C3 as the spec states it fails on the same two kinds of body.  JSON
    [null] fails the presence check and gets status 500, not 400.  A
    boolean score fails the spec's type check, yet the body is answered
    201 and its document is inserted. *)
Lemma failed_check_not_always_rejected :
  status_code (post_leaderboard JNull []).1 = 500
  ∧ spec_check_holds FieldTypes boolean_score_body = false
  ∧ status_code (post_leaderboard (JObj boolean_score_body) []).1 = 201
  ∧ (post_leaderboard (JObj boolean_score_body) []).2 = [Stored 1 boolean_score_body].
Proof.
  split; [reflexivity|]. split; [reflexivity|].
  by rewrite boolean_score_run.
Qed.

(** C3, amended: a JSON object whose score is not a boolean and that
    fails one of the spec's checks is answered 400 and leaves the store
    exactly as it was; a body that is not a JSON object leaves the store
    as it was too, with status 400 or 500. *)
Theorem add_score_spec_rejection_is_atomic (data : json) (st : store) :
  (∀ d c, data = JObj d → boolean_score d = false →
     spec_check_holds c d = false →
     status_code (post_leaderboard data st).1 = 400
     ∧ (post_leaderboard data st).2 = st)
  ∧ ((∀ d, data ≠ JObj d) →
     (post_leaderboard data st).2 = st
     ∧ (status_code (post_leaderboard data st).1 = 400
        ∨ status_code (post_leaderboard data st).1 = 500)).
Proof.
  split.
  - intros d c -> Hb Hc. rewrite (spec_check_agrees d c Hb) in Hc.
    destruct (check_fails_first_failure d c Hc) as [c' Hf].
    rewrite dispatch_add_score_obj. unfold prescribed_reply. by rewrite Hf.
  - intros Hobj. unfold post_leaderboard, dispatch.
    destruct data as [| | | |s|l|d].
    1-4: rewrite add_score_scalar by done; cbn; auto.
    + rewrite add_score_text. destruct (names_in _); cbn; auto.
    + rewrite add_score_array. destruct (names_in _); cbn; auto.
    + by destruct (Hobj d).
Qed.

Lemma add_score_spec_rejection_is_atomic_witness :
  boolean_score name_of_51 = false
  ∧ spec_check_holds NameLength name_of_51 = false
  ∧ status_code (post_leaderboard (JObj name_of_51) [Stored 7 boolean_score_body]).1 = 400
  ∧ (post_leaderboard (JObj name_of_51) [Stored 7 boolean_score_body]).2
    = [Stored 7 boolean_score_body].
Proof.
  split; [reflexivity|]. split; [reflexivity|].
  exact (proj1 (add_score_spec_rejection_is_atomic (JObj name_of_51)
                  [Stored 7 boolean_score_body])
           name_of_51 NameLength eq_refl eq_refl eq_refl).
Defined.

(** Whatever the body, JSON object or not, the store changes only on a
    201. *)
Lemma add_score_store_unless_created (data : json) (st : store) :
  status_code (post_leaderboard data st).1 ≠ 201 →
  (post_leaderboard data st).2 = st.
Proof.
  intros Hs. destruct (add_score_store data st) as [H|(d & _ & _ & H)]; [done|].
  by rewrite H in Hs.
Qed.

Lemma entry_of_lookup (d : gmap string json) (k : string) :
  entry_of d !! k = if decide (k ∈ ["name"; "score"; "date"]) then d !! k else None.
Proof.
  unfold entry_of. apply option_eq; intros v. rewrite map_lookup_filter_Some.
  cbn [fst]. destruct (decide _); intuition congruence.
Qed.

Lemma check_present_fields (d : gmap string json) :
  check_holds FieldsPresent d = true →
  ∃ n s t, d !! "name" = Some n ∧ d !! "score" = Some s ∧ d !! "date" = Some t.
Proof.
  cbn [check_holds]. rewrite !andb_true_iff, !bool_decide_eq_true.
  intros [[[n Hn] [s Hs]] [t Ht]]. eauto 7.
Qed.

Lemma all_checks_each (d : gmap string json) (c : check) :
  all_checks d = true → check_holds c d = true.
Proof.
  unfold all_checks. rewrite forallb_forall. intros H. apply H.
  unfold checks_in_order. destruct c; cbn; tauto.
Qed.

(** C4: a body that passes the five checks is answered 201 with the
    body [{"message": "Score added successfully!"}], and exactly one document is appended, holding the
    three fields [name], [score], [date] with the submitted values and
    nothing else of the body. *)
Theorem add_score_inserts_entry (d : gmap string json) (st : store) :
  all_checks d = true →
  post_leaderboard (JObj d) st =
    (Replied (Reply 201 (JObj {[ "message" := JStr "Score added successfully!" ]})),
     st ++ [Stored (fresh_oid st) (entry_of d)])
  ∧ dom (entry_of d) = ({[ "name"; "score"; "date" ]} : gset string)
  ∧ entry_of d !! "name" = d !! "name"
  ∧ entry_of d !! "score" = d !! "score"
  ∧ entry_of d !! "date" = d !! "date".
Proof.
  intros Hall. split.
  { rewrite dispatch_add_score_obj. unfold prescribed_reply.
    apply all_checks_no_failure in Hall. by rewrite Hall. }
  split; [|by rewrite !entry_of_lookup].
  destruct (check_present_fields d (all_checks_each d FieldsPresent Hall))
    as (n & s & t & Hn & Hs & Ht).
  rewrite (entry_of_fields d n s t Hn Hs Ht).
  rewrite !dom_insert_L, dom_singleton_L. set_solver.
Qed.

Lemma add_score_inserts_entry_witness :
  all_checks al_10_with_extra = true ∧
  post_leaderboard (JObj al_10_with_extra) [] =
    (Replied (Reply 201 (JObj {[ "message" := JStr "Score added successfully!" ]})),
     [Stored (fresh_oid []) (entry_of al_10_with_extra)])
  ∧ dom (entry_of al_10_with_extra) = ({[ "name"; "score"; "date" ]} : gset string).
Proof.
  split; [reflexivity|].
  destruct (add_score_inserts_entry al_10_with_extra [] eq_refl) as (H1 & H2 & _).
  split; [exact H1|exact H2].
Defined.

Example entry_of_discards_extra :
  entry_of al_10_with_extra =
    {[ "name" := JStr "Al"; "score" := JInt 10; "date" := JStr "2024-01-01" ]}.
Proof. by apply entry_of_fields. Qed.

(** C7: submitting is not idempotent.  A valid body submitted twice in
    succession is answered 201 both times and leaves two documents with
    the same fields, under two different identifiers. *)
Theorem add_score_twice_stores_two (d : gmap string json) (st : store) :
  all_checks d = true →
  ∃ id1 id2, id1 ≠ id2
    ∧ post_leaderboard (JObj d) st =
        (Replied (Reply 201 (jsonify_message "Score added successfully!")),
         st ++ [Stored id1 (entry_of d)])
    ∧ post_leaderboard (JObj d) (st ++ [Stored id1 (entry_of d)]) =
        (Replied (Reply 201 (jsonify_message "Score added successfully!")),
         st ++ [Stored id1 (entry_of d); Stored id2 (entry_of d)]).
Proof.
  intros Hall. apply all_checks_no_failure in Hall.
  exists (fresh_oid st), (fresh_oid (st ++ [Stored (fresh_oid st) (entry_of d)])).
  split.
  { pose proof (fresh_oid_grows st (entry_of d)). lia. }
  rewrite !dispatch_add_score_obj. unfold prescribed_reply. rewrite Hall.
  split; [done|]. by rewrite <- app_assoc.
Qed.

Lemma add_score_twice_stores_two_witness :
  all_checks al_10_with_extra = true ∧
  ∃ id1 id2, id1 ≠ id2
    ∧ post_leaderboard (JObj al_10_with_extra) [] =
        (Replied (Reply 201 (jsonify_message "Score added successfully!")),
         [Stored id1 (entry_of al_10_with_extra)])
    ∧ post_leaderboard (JObj al_10_with_extra) [Stored id1 (entry_of al_10_with_extra)] =
        (Replied (Reply 201 (jsonify_message "Score added successfully!")),
         [Stored id1 (entry_of al_10_with_extra); Stored id2 (entry_of al_10_with_extra)]).
Proof.
  split; [reflexivity|].
  exact (add_score_twice_stores_two al_10_with_extra [] eq_refl).
Defined.

(** ** Get Leaderboard *)

Example submit_al_bo_cy :
  (post_leaderboard (JObj cy_7)
     (post_leaderboard (JObj bo_5) (post_leaderboard (JObj al_10) []).2).2).2
  = three_scores.
Proof. vm_compute. reflexivity. Qed.

Example leaderboard_2024_01_01 :
  get_leaderboard_route int_keys_first "2024-01-01" three_scores =
    (Replied (Reply 200 (JArr [JObj bo_5; JObj al_10])), three_scores).
Proof. vm_compute. reflexivity. Qed.

(** C5: for every store and date key the reply lists exactly the stored
    entries whose [date] field is that very string (each as often as it
    is stored, without its identifier), in ascending order of [score]:
    any two integer scores appear smaller first. *)
Theorem get_leaderboard_sorted_by_date
    (key_leb : option json → option json → bool) (Hord : ScoreOrder key_leb)
    (date : string) (st : store) :
  ∃ docs,
    get_leaderboard_route key_leb date st =
      (Replied (Reply 200 (JArr (JObj <$> docs))), st)
    ∧ docs ≡ₚ fields <$> filter (has_date date) st
    ∧ StronglySorted (λ a b, key_leb (a !! "score") (b !! "score") = true) docs
    ∧ ∀ (i j : nat) (a b : gmap string json) (x y : Z),
        (i < j)%nat → docs !! i = Some a → docs !! j = Some b →
        a !! "score" = Some (JInt x) → b !! "score" = Some (JInt y) → x ≤ y.
Proof.
  exists (sort_ascending key_leb "score" (fields <$> filter (has_date date) st)).
  split; [apply get_leaderboard_run|].
  split; [apply sort_ascending_perm|].
  pose proof (sort_ascending_sorted key_leb "score"
                (fields <$> filter (has_date date) st)) as Hs.
  split; [exact Hs|].
  intros i j a b x y Hij Ha Hb Hx Hy.
  pose proof (StronglySorted_lookup _ _ i j a b Hs Hij Ha Hb) as Hab.
  unfold doc_leb in Hab. rewrite Hx, Hy, key_leb_int in Hab. lia.
Qed.

Lemma get_leaderboard_sorted_by_date_witness :
  ∃ docs,
    get_leaderboard_route int_keys_first "2024-01-01" three_scores =
      (Replied (Reply 200 (JArr (JObj <$> docs))), three_scores)
    ∧ docs ≡ₚ fields <$> filter (has_date "2024-01-01") three_scores
    ∧ StronglySorted
        (λ a b, int_keys_first (a !! "score") (b !! "score") = true) docs
    ∧ ∀ (i j : nat) (a b : gmap string json) (x y : Z),
        (i < j)%nat → docs !! i = Some a → docs !! j = Some b →
        a !! "score" = Some (JInt x) → b !! "score" = Some (JInt y) → x ≤ y.
Proof.
  exact (get_leaderboard_sorted_by_date int_keys_first int_keys_first_order
           "2024-01-01" three_scores).
Defined.

(** The date key is compared as it is: another case or spelling of the
    same date matches nothing. *)
Lemma has_date_exact (date : string) (d : stored) (s : string) :
  fields d !! "date" = Some (JStr s) → has_date date d ↔ s = date.
Proof. unfold has_date. intros ->. split; congruence. Qed.

(** C6: Get Leaderboard never fails.  For every date key and store the
    status is 200 and the store is untouched, and when no stored entry
    has the date the body is the empty array. *)
Theorem get_leaderboard_always_200
    (key_leb : option json → option json → bool) (date : string) (st : store) :
  status_code (get_leaderboard_route key_leb date st).1 = 200
  ∧ (get_leaderboard_route key_leb date st).2 = st
  ∧ (Forall (λ d, ¬ has_date date d) st →
     (get_leaderboard_route key_leb date st).1 = Replied (Reply 200 (JArr []))).
Proof.
  rewrite get_leaderboard_run. cbn [fst snd status_code status].
  split; [done|]. split; [done|]. intros Hno.
  assert (filter (has_date date) st = []) as ->; [|done].
  induction Hno as [|d st Hd _ IH]; [done|].
  by rewrite filter_cons_False.
Qed.

Lemma get_leaderboard_always_200_witness :
  Forall (λ d, ¬ has_date "1999-12-31" d) three_scores ∧
  (get_leaderboard_route int_keys_first "1999-12-31" three_scores).1
    = Replied (Reply 200 (JArr [])).
Proof.
  assert (Forall (λ d, ¬ has_date "1999-12-31" d) three_scores) as Hno.
  { unfold three_scores. repeat constructor; by vm_compute. }
  split; [exact Hno|].
  exact (proj2 (proj2 (get_leaderboard_always_200 int_keys_first "1999-12-31"
                         three_scores)) Hno).
Defined.

(** ** Submit, then query *)

Lemma occurs_once_of_perm {A : Type} (e : A) (l l' : list A) :
  l' ≡ₚ e :: l → e ∉ l → occurs_once e l'.
Proof.
  intros Hp Hnot.
  assert (e ∈ l') as Hin by (rewrite Hp; left).
  apply list_elem_of_split in Hin as (l1 & l2 & ->).
  exists l1, l2. split; [done|].
  rewrite <- Permutation_middle in Hp. apply Permutation_cons_inv in Hp.
  rewrite <- Hp in Hnot. rewrite elem_of_app in Hnot. tauto.
Qed.

Lemma twice_is_not_once {A : Type} (e : A) : ¬ occurs_once e [e; e].
Proof.
  intros (l1 & l2 & Heq & H1 & H2).
  destruct l1 as [|x l1]; cbn in Heq.
  - injection Heq as <-. apply H2. left.
  - injection Heq as <- _. apply H1. left.
Qed.

Example resubmitted_al_leaderboard :
  (get_leaderboard_route int_keys_first "2024-01-01"
     (post_leaderboard (JObj al_10) [Stored 1 al_10]).2).1
  = Replied (Reply 200 (JArr (JObj <$> [al_10; al_10]))).
Proof. vm_compute. reflexivity. Qed.

(** C8 as the spec states it fails: when the store already holds an equal
    entry, the leaderboard after a valid submission lists it twice. *)
Lemma leaderboard_lists_resubmission_twice :
  all_checks al_10 = true ∧ al_10 !! "date" = Some (JStr "2024-01-01") ∧
  ¬ ∃ docs,
      (get_leaderboard_route int_keys_first "2024-01-01"
         (post_leaderboard (JObj al_10) [Stored 1 al_10]).2).1
        = Replied (Reply 200 (JArr (JObj <$> docs)))
      ∧ occurs_once (entry_of al_10) docs.
Proof.
  split; [reflexivity|]. split; [reflexivity|].
  intros (docs & Hrun & Honce).
  rewrite resubmitted_al_leaderboard in Hrun.
  assert (docs = [al_10; al_10]) as ->.
  { destruct docs as [|a [|b [|c docs]]]; cbn in Hrun; congruence. }
  rewrite (entry_of_fields al_10 (JStr "Al") (JInt 10) (JStr "2024-01-01")) in Honce
    by reflexivity.
  by apply (twice_is_not_once al_10).
Qed.

(** C8, amended: after a valid submission the leaderboard of its date is
    the leaderboard before it with the submitted entry added once; the
    entry is listed, and listed exactly once when the leaderboard did not
    hold an equal entry before. *)
Theorem leaderboard_gains_submission
    (key_leb : option json → option json → bool)
    (d : gmap string json) (date : string) (st : store) :
  all_checks d = true → d !! "date" = Some (JStr date) →
  ∃ before after,
    (get_leaderboard_route key_leb date st).1
      = Replied (Reply 200 (JArr (JObj <$> before)))
    ∧ (get_leaderboard_route key_leb date (post_leaderboard (JObj d) st).2).1
      = Replied (Reply 200 (JArr (JObj <$> after)))
    ∧ after ≡ₚ entry_of d :: before
    ∧ entry_of d ∈ after
    ∧ (entry_of d ∉ before → occurs_once (entry_of d) after).
Proof.
  intros Hall Hdate.
  rewrite dispatch_add_score_obj.
  apply all_checks_no_failure in Hall. rewrite Hall. cbn [snd].
  rewrite !get_leaderboard_run. cbn [fst].
  eexists _, _. split; [reflexivity|]. split; [reflexivity|].
  assert (sort_ascending key_leb "score"
            (fields <$> filter (has_date date)
               (st ++ [Stored (fresh_oid st) (entry_of d)]))
          ≡ₚ entry_of d
             :: sort_ascending key_leb "score" (fields <$> filter (has_date date) st))
    as Hp.
  { rewrite !sort_ascending_perm, filter_app, fmap_app.
    rewrite filter_cons_True, filter_nil.
    - cbn [fmap list_fmap fields]. by rewrite <- Permutation_cons_append.
    - unfold has_date. cbn [fields]. rewrite entry_of_lookup.
      rewrite decide_True; [done|]. set_solver. }
  split; [exact Hp|]. split; [rewrite Hp; left|].
  intros Hnot. by eapply occurs_once_of_perm.
Qed.

Lemma leaderboard_gains_submission_witness :
  all_checks bo_5 = true ∧ bo_5 !! "date" = Some (JStr "2024-01-01") ∧
  ∃ before after,
    (get_leaderboard_route int_keys_first "2024-01-01" [Stored 1 al_10]).1
      = Replied (Reply 200 (JArr (JObj <$> before)))
    ∧ (get_leaderboard_route int_keys_first "2024-01-01"
         (post_leaderboard (JObj bo_5) [Stored 1 al_10]).2).1
      = Replied (Reply 200 (JArr (JObj <$> after)))
    ∧ after ≡ₚ entry_of bo_5 :: before
    ∧ entry_of bo_5 ∈ after
    ∧ (entry_of bo_5 ∉ before → occurs_once (entry_of bo_5) after).
Proof.
  split; [reflexivity|]. split; [reflexivity|].
  exact (leaderboard_gains_submission int_keys_first bo_5 "2024-01-01"
           [Stored 1 al_10] eq_refl eq_refl).
Defined.

(** ** The store invariant *)

(** C9: every stored document should have an integer [score].  The empty
    store satisfies the invariant; one accepted submission with the JSON
    boolean [true] as score leaves a document whose score is no integer. *)
Theorem boolean_score_breaks_store_invariant :
  Forall (λ d, entry_invariant (fields d)) []
  ∧ status_code (post_leaderboard (JObj boolean_score_body) []).1 = 201
  ∧ ¬ Forall (λ d, entry_invariant (fields d))
        (post_leaderboard (JObj boolean_score_body) []).2.
Proof.
  split; [constructor|]. rewrite boolean_score_run. split; [reflexivity|].
  cbn [snd]. intros H. apply Forall_cons_1 in H as [(_ & _ & n & Hn) _].
  cbn [fields] in Hn. vm_compute in Hn. discriminate Hn.
Qed.

Lemma nonempty_length (s : string) : s ≠ EmptyString → 1 ≤ Z.of_nat (String.length s).
Proof. destruct s; [done|]. cbn [String.length]. lia. Qed.

(** What the checks do guarantee of the inserted entry. *)
Lemma all_checks_entry_accepted (d : gmap string json) :
  all_checks d = true → entry_accepted (entry_of d).
Proof.
  intros Hall.
  pose proof (all_checks_each d FieldTypes Hall) as Hty.
  pose proof (all_checks_each d NonEmpty Hall) as Hne.
  pose proof (all_checks_each d NameLength Hall) as Hnl.
  pose proof (all_checks_each d DateLength Hall) as Hdl.
  destruct (check_present_fields d (all_checks_each d FieldsPresent Hall))
    as (n & s & t & Hn & Hs & Ht).
  cbn [check_holds] in Hty, Hne, Hnl, Hdl.
  unfold field_is, text_nonempty, text_within, text_field in *.
  rewrite Hn, Hs, Ht in *.
  apply andb_true_iff in Hty as [Hty Ht'].
  apply andb_true_iff in Hty as [Hn' Hs'].
  destruct n as [| | | |sn| |]; try discriminate Hn'.
  destruct t as [| | | |sd| |]; try discriminate Ht'.
  apply andb_true_iff in Hne as [Hne1 Hne2].
  apply Z.leb_le in Hnl, Hdl.
  unfold entry_accepted, text_between. rewrite !entry_of_lookup.
  rewrite !decide_True by set_solver. rewrite Hn, Hs, Ht.
  split; [exists sn|split; [exists sd|exists s]]; split; try done.
  - split; [|done]. apply nonempty_length. by destruct sn.
  - split; [|done]. apply nonempty_length. by destruct sd.
Qed.

(** Both operations keep every stored document as it is: Get Leaderboard
    returns the store it was given (see [get_leaderboard_always_200]),
    Submit Score at most appends one document, and that document has a
    name of 1 to 50 characters, a date of 1 to 10, and a score that
    passed [isinstance(…, int)]. *)
Lemma add_score_appends (data : json) (st : store) :
  (post_leaderboard data st).2 = st
  ∨ ∃ d, (post_leaderboard data st).2 = st ++ [d] ∧ entry_accepted (fields d).
Proof.
  destruct (add_score_store data st) as [H|(d & _ & Hall & H)]; [by left|right].
  exists (Stored (fresh_oid st) (entry_of d)). rewrite H. split; [done|].
  by apply all_checks_entry_accepted.
Qed.

Lemma add_score_keeps_accepted (data : json) (st : store) :
  Forall (λ d, entry_accepted (fields d)) st →
  Forall (λ d, entry_accepted (fields d)) (post_leaderboard data st).2.
Proof.
  intros Hst. destruct (add_score_appends data st) as [->|(d & -> & Hd)]; [done|].
  apply Forall_app. split; [done|]. by constructor.
Qed.

(** ** Bodies that are not JSON objects *)

(** C10 as stated fails: the empty JSON array, which is no JSON object,
    gets the 400 "Invalid data!" reply and not a server error. *)
Lemma empty_array_is_rejected_400 :
  (∀ m, JArr [] ≠ JObj m)
  ∧ post_leaderboard (JArr []) [] =
      (Replied (Reply 400 (jsonify_error "Invalid data!")), [])
  ∧ ¬ ∃ e, (post_leaderboard (JArr []) []).1 = ServerError e.
Proof.
  split; [done|]. split; [reflexivity|]. intros [e He]. discriminate He.
Qed.

(** C10, amended: a body that is not a JSON object never inserts a
    document.  JSON [null], a boolean or a number makes the presence test
    raise [TypeError], an unhandled server error.  An array or a string is
    answered 400 "Invalid data!" unless all three of [name], [score] and
    [date] occur in it (as elements of the array, as substrings of the
    string); then reading the field raises [TypeError]. *)
Theorem add_score_non_object (data : json) (st : store) :
  (∀ m, data ≠ JObj m) →
  (post_leaderboard data st).2 = st
  ∧ (post_leaderboard data st).1 =
      match data with
      | JArr l =>
          if names_in (λ k, existsb (λ v, py_eq_str v k) l)
          then ServerError TypeError
          else Replied (Reply 400 (jsonify_error "Invalid data!"))
      | JStr s =>
          if names_in (λ k, str_contains k s)
          then ServerError TypeError
          else Replied (Reply 400 (jsonify_error "Invalid data!"))
      | _ => ServerError TypeError
      end.
Proof.
  intros Hobj. unfold post_leaderboard, dispatch.
  destruct data as [| | | |s|l|m].
  1-4: by rewrite add_score_scalar.
  - rewrite add_score_text. by destruct (names_in _).
  - rewrite add_score_array. by destruct (names_in _).
  - by destruct (Hobj m).
Qed.

Lemma add_score_non_object_witness :
  (∀ m, JNull ≠ JObj m)
  ∧ (post_leaderboard JNull three_scores).2 = three_scores
  ∧ (post_leaderboard JNull three_scores).1 = ServerError TypeError.
Proof.
  assert (∀ m, JNull ≠ JObj m) as Hobj by (intros m H; discriminate H).
  split; [exact Hobj|].
  exact (add_score_non_object JNull three_scores Hobj).
Defined.

Example array_naming_all_fields :
  post_leaderboard (JArr [JStr "name"; JStr "score"; JStr "date"]) [] =
    (ServerError TypeError, []).
Proof. reflexivity. Qed.

Example text_naming_all_fields :
  post_leaderboard (JStr "name, score, date") [] = (ServerError TypeError, []).
Proof. reflexivity. Qed.

Example text_naming_one_field :
  post_leaderboard (JStr "name") [] =
    (Replied (Reply 400 (jsonify_error "Invalid data!")), []).
Proof. reflexivity. Qed.


(** * Further properties of the handlers *)

(** ** Which submissions are accepted *)

Lemma text_between_length (lo hi : Z) (k : string) (d : gmap string json) (s : string) :
  d !! k = Some (JStr s) → text_between lo hi k d ↔ lo ≤ Z.of_nat (String.length s) ≤ hi.
Proof.
  intros Hk. unfold text_between. split.
  - intros (s' & Hs' & Hlen). congruence.
  - intros Hlen. by exists s.
Qed.






(** X2: validation does not look at the collection: the reply to a body
    is the same whatever the store holds. *)
Theorem add_score_reply_ignores_store (data : json) (st1 st2 : store) :
  (post_leaderboard data st1).1 = (post_leaderboard data st2).1.
Proof.
  unfold post_leaderboard, dispatch. destruct data as [| | | |s|l|d].
  1-4: by rewrite !add_score_scalar.
  - rewrite !add_score_text. by destruct (names_in _).
  - rewrite !add_score_array. by destruct (names_in _).
  - rewrite !add_score_obj. by destruct (first_failure d).
Qed.

Lemma first_failure_fields (d1 d2 : gmap string json) :
  d1 !! "name" = d2 !! "name" → d1 !! "score" = d2 !! "score" →
  d1 !! "date" = d2 !! "date" → first_failure d1 = first_failure d2.
Proof.
  intros Hn Hs Hd. unfold first_failure, checks_in_order.
  cbn [List.find check_holds].
  unfold field_is, text_nonempty, text_within, text_field.
  by rewrite Hn, Hs, Hd.
Qed.

(** X3: only the three fields count.  Two JSON objects with the same
    [name], [score] and [date] get the same reply and leave the same
    store, whatever else they carry. *)
Theorem add_score_ignores_other_fields (d1 d2 : gmap string json) (st : store) :
  d1 !! "name" = d2 !! "name" → d1 !! "score" = d2 !! "score" →
  d1 !! "date" = d2 !! "date" →
  post_leaderboard (JObj d1) st = post_leaderboard (JObj d2) st.
Proof.
  intros Hn Hs Hd. rewrite !dispatch_add_score_obj. unfold prescribed_reply.
  rewrite (first_failure_fields d1 d2 Hn Hs Hd).
  assert (entry_of d1 = entry_of d2) as ->; [|done].
  apply map_eq; intros k. rewrite !entry_of_lookup.
  destruct (decide _) as [Hk|]; [|done].
  rewrite !elem_of_cons, elem_of_nil in Hk.
  destruct Hk as [->|[->|[->|[]]]]; done.
Qed.

Lemma add_score_ignores_other_fields_witness :
  post_leaderboard (JObj al_10_with_extra) three_scores
  = post_leaderboard (JObj al_10) three_scores.
Proof.
  apply (add_score_ignores_other_fields al_10_with_extra al_10 three_scores);
    reflexivity.
Defined.

(** X4: the handler never fails on a missing key: no body ends in a
    [KeyError].  A body that does not pass the handler's checks never
    reaches the insert: the store stays as it was and the answer is 400,
    or an unhandled [TypeError] when the body is not a JSON object; a
    JSON object that fails a check is always answered 400. *)
Theorem add_score_never_key_error (data : json) (st : store) :
  (post_leaderboard data st).1 ≠ ServerError KeyError
  ∧ ((∃ d, data = JObj d ∧ all_checks d = true)
     ∨ ((post_leaderboard data st).2 = st
        ∧ (status_code (post_leaderboard data st).1 = 400
           ∨ (post_leaderboard data st).1 = ServerError TypeError)))
  ∧ ∀ d, data = JObj d → all_checks d = false →
      status_code (post_leaderboard data st).1 = 400.
Proof.
  unfold post_leaderboard, dispatch. destruct data as [| | | |s|l|d].
  1-4: rewrite add_score_scalar by done; cbn [fst snd]; split; [done|]; split;
       [by right; auto|]; intros d Hd; discriminate Hd.
  - rewrite add_score_text. destruct (names_in _); cbn [fst snd status_code status];
      (split; [done|]); (split; [by right; auto|]); intros d Hd; discriminate Hd.
  - rewrite add_score_array. destruct (names_in _); cbn [fst snd status_code status];
      (split; [done|]); (split; [by right; auto|]); intros d Hd; discriminate Hd.
  - rewrite add_score_obj. destruct (first_failure d) eqn:Hf;
      cbn [fst snd status_code status]; (split; [done|]); split.
    + by right; auto.
    + done.
    + left. exists d. split; [done|]. by apply all_checks_no_failure.
    + intros d' Hd Hall. injection Hd as <-.
      apply all_checks_no_failure in Hf. congruence.
Qed.

(** ** Leaderboards of other dates *)

Lemma has_date_entry_of (date : string) (id : N) (d : gmap string json) :
  has_date date (Stored id (entry_of d)) ↔ d !! "date" = Some (JStr date).
Proof.
  unfold has_date. cbn [fields]. rewrite entry_of_lookup.
  by rewrite decide_True by set_solver.
Qed.

(** X5: a submission changes the leaderboard of its own date only.  If
    the body is not a JSON object whose [date] is the text [date], the
    leaderboard of [date] holds the same records after the submission as
    before, each as often (the order among them is the store's). *)
Theorem leaderboard_unchanged_by_other_date
    (key_leb : option json → option json → bool)
    (date : string) (data : json) (st : store) :
  (∀ d, data = JObj d → d !! "date" ≠ Some (JStr date)) →
  ∃ before after : list (gmap string json),
    (get_leaderboard_route key_leb date st).1
      = Replied (Reply 200 (JArr (JObj <$> before)))
    ∧ (get_leaderboard_route key_leb date (post_leaderboard data st).2).1
      = Replied (Reply 200 (JArr (JObj <$> after)))
    ∧ after ≡ₚ before.
Proof.
  intros Hother. rewrite !get_leaderboard_run. cbn [fst].
  eexists _, _. split; [reflexivity|]. split; [reflexivity|].
  rewrite !sort_ascending_perm.
  destruct (add_score_store data st) as [->|(d & -> & _ & ->)]; [done|].
  cbn [snd].
  rewrite filter_app, filter_cons_False, filter_nil, app_nil_r; [done|].
  rewrite has_date_entry_of. by apply Hother.
Qed.

Lemma leaderboard_unchanged_by_other_date_witness :
  ∃ before after : list (gmap string json),
    (get_leaderboard_route int_keys_first "2024-01-01" three_scores).1
      = Replied (Reply 200 (JArr (JObj <$> before)))
    ∧ (get_leaderboard_route int_keys_first "2024-01-01"
         (post_leaderboard (JObj cy_7) three_scores).2).1
      = Replied (Reply 200 (JArr (JObj <$> after)))
    ∧ after ≡ₚ before.
Proof.
  apply (leaderboard_unchanged_by_other_date int_keys_first "2024-01-01"
           (JObj cy_7) three_scores).
  intros d Hd. apply (f_equal (λ v, if v is JObj m then m !! "date" else None)) in Hd.
  cbv beta iota in Hd. rewrite <- Hd. by vm_compute.
Defined.

(** X6: every record of a leaderboard carries the date that was asked
    for, and the leaderboard has as many records as the store has
    documents of that date. *)
Theorem leaderboard_records_have_date
    (key_leb : option json → option json → bool) (date : string) (st : store) :
  ∃ docs,
    (get_leaderboard_route key_leb date st).1
      = Replied (Reply 200 (JArr (JObj <$> docs)))
    ∧ Forall (λ e, e !! "date" = Some (JStr date)) docs
    ∧ length docs = length (filter (has_date date) st).
Proof.
  rewrite get_leaderboard_run. cbn [fst]. eexists. split; [reflexivity|].
  split.
  - rewrite sort_ascending_perm. apply Forall_fmap, Forall_forall.
    intros d Hd. by apply list_elem_of_filter in Hd as [Hd _].
  - by rewrite sort_ascending_perm, length_fmap.
Qed.

(** ** Runs of requests *)

Lemma handle_store (key_leb : option json → option json → bool)
    (r : request) (st : store) :
  (handle key_leb r st).2 =
    match stored_entry r with
    | Some e => st ++ [Stored (fresh_oid st) e]
    | None => st
    end.
Proof.
  destruct r as [date|data]; cbn [handle stored_entry].
  { by rewrite get_leaderboard_run. }
  destruct data as [| | | |s|l|d].
  1-4: by unfold post_leaderboard, dispatch; rewrite add_score_scalar.
  - unfold post_leaderboard, dispatch. rewrite add_score_text.
    by destruct (names_in _).
  - unfold post_leaderboard, dispatch. rewrite add_score_array.
    by destruct (names_in _).
  - rewrite dispatch_add_score_obj. cbn [snd].
    destruct (all_checks d) eqn:Hall.
    + apply all_checks_no_failure in Hall. by rewrite Hall.
    + destruct (first_failure d) eqn:Hf; [done|].
      apply all_checks_no_failure in Hf. congruence.
Qed.

(** X7: the collection is the log of the accepted submissions.  After
    any run of requests the stored documents are the ones stored before,
    followed by the entries of the accepted submissions in the order they
    were made; queries and rejected submissions leave no trace. *)
Theorem run_appends_accepted (key_leb : option json → option json → bool)
    (rs : list request) (st : store) :
  fields <$> run key_leb rs st = (fields <$> st) ++ omap stored_entry rs.
Proof.
  unfold run. revert st. induction rs as [|r rs IH]; intros st.
  { by rewrite app_nil_r. }
  cbn [foldl omap list_omap]. rewrite IH, handle_store.
  destruct (stored_entry r) as [e|]; [|done].
  by rewrite fmap_app, <- app_assoc.
Qed.

Lemma omap_length_le {A B : Type} (f : A → option B) (l : list A) :
  (length (omap f l) ≤ length l)%nat.
Proof.
  induction l as [|x l IH]; cbn [omap list_omap length]; [lia|].
  destruct (f x); cbn [length]; lia.
Qed.

(** X8: after a run of requests on the empty collection, a record is on
    the leaderboard of a date exactly when it is the entry of an accepted
    submission of the run and carries that date. *)
Theorem leaderboard_of_run (key_leb : option json → option json → bool)
    (rs : list request) (date : string) :
  ∃ docs,
    (get_leaderboard_route key_leb date (run key_leb rs [])).1
      = Replied (Reply 200 (JArr (JObj <$> (docs : list (gmap string json)))))
    ∧ (length docs ≤ length rs)%nat
    ∧ ∀ e, e ∈ docs ↔ e ∈ omap stored_entry rs ∧ e !! "date" = Some (JStr date).
Proof.
  rewrite get_leaderboard_run. cbn [fst]. eexists. split; [reflexivity|].
  pose proof (run_appends_accepted key_leb rs []) as Hrun. cbn in Hrun.
  split.
  - rewrite sort_ascending_perm, length_fmap.
    pose proof (length_filter (has_date date) (run key_leb rs [])) as Hle.
    assert (length (run key_leb rs []) = length (omap stored_entry rs)) as Hlen
      by (by rewrite <- Hrun, length_fmap).
    pose proof (omap_length_le stored_entry rs). lia.
  - intros e. rewrite sort_ascending_perm, list_elem_of_fmap.
    rewrite <- Hrun, list_elem_of_fmap. split.
    + intros (d & -> & Hd). apply list_elem_of_filter in Hd as [Hdate Hd].
      split; [by exists d|exact Hdate].
    + intros [(d & -> & Hd) Hdate]. exists d. split; [done|].
      by apply list_elem_of_filter.
Qed.

(** X9: no run of requests alters or removes a stored document, and the
    bounds on names and dates are kept.  The store before the run is a
    prefix of the store after it, and if every document had a name of 1
    to 50 characters, a date of 1 to 10 and a score accepted by
    [isinstance(…, int)], every document still has. *)
Theorem run_keeps_store (key_leb : option json → option json → bool)
    (rs : list request) (st : store) :
  st `prefix_of` run key_leb rs st
  ∧ (Forall (λ d, entry_accepted (fields d)) st →
     Forall (λ d, entry_accepted (fields d)) (run key_leb rs st)).
Proof.
  unfold run. revert st. induction rs as [|r rs IH]; intros st; [done|].
  cbn [foldl]. destruct (IH (handle key_leb r st).2) as [Hpre Hinv].
  assert (st `prefix_of` (handle key_leb r st).2
          ∧ (Forall (λ d, entry_accepted (fields d)) st →
             Forall (λ d, entry_accepted (fields d)) (handle key_leb r st).2))
    as [Hpre1 Hinv1].
  { destruct r as [date|data]; cbn [handle].
    - by rewrite get_leaderboard_run.
    - split; [|apply add_score_keeps_accepted].
      destruct (add_score_appends data st) as [->|(d & -> & _)]; [done|].
      by apply prefix_app_r. }
  split; [by etrans|auto].
Qed.

Lemma run_keeps_store_witness :
  Forall (λ d, entry_accepted (fields d))
    (run int_keys_first
       [PostLeaderboard (JObj al_10); GetLeaderboard "2024-01-01";
        PostLeaderboard JNull; PostLeaderboard (JObj bo_5)] []).
Proof.
  apply (run_keeps_store int_keys_first _ []). constructor.
Defined.

(** X10: in a collection whose dates all have 1 to 10 characters, as the
    handler leaves it, a date key that is empty or longer than 10
    characters has an empty leaderboard. *)
Theorem leaderboard_empty_for_unstorable_date
    (key_leb : option json → option json → bool) (date : string) (st : store) :
  Forall (λ d, entry_accepted (fields d)) st →
  ¬ (1 ≤ Z.of_nat (String.length date) ≤ 10) →
  (get_leaderboard_route key_leb date st).1 = Replied (Reply 200 (JArr [])).
Proof.
  intros Hst Hlen. rewrite get_leaderboard_run. cbn [fst].
  assert (filter (has_date date) st = []) as ->; [|done].
  induction Hst as [|d st (_ & (t & Ht & Hb) & _) _ IH]; [done|].
  rewrite filter_cons_False; [done|].
  unfold has_date. intros Hd. rewrite Hd in Ht. injection Ht as ->. by apply Hlen.
Qed.

Lemma al_10_accepted : entry_accepted al_10.
Proof.
  split; [exists "Al"; split; [reflexivity|cbn; lia]|].
  split; [exists "2024-01-01"; split; [reflexivity|cbn; lia]|].
  exists (JInt 10). split; reflexivity.
Qed.

Lemma leaderboard_empty_for_unstorable_date_witness :
  (get_leaderboard_route int_keys_first "2024-01-01T00:00" [Stored 1 al_10]).1
  = Replied (Reply 200 (JArr [])).
Proof.
  apply (leaderboard_empty_for_unstorable_date int_keys_first).
  - constructor; [exact al_10_accepted|constructor].
  - cbn. lia.
Defined.

(** ** Text bodies *)

Lemma append_cons (c : Ascii.ascii) (a b : string) :
  String c a +:+ b = String c (a +:+ b).
Proof. reflexivity. Qed.

Lemma append_nil (b : string) : EmptyString +:+ b = b.
Proof. reflexivity. Qed.

Lemma prefix_app (n h : string) :
  String.prefix n h = true ↔ ∃ b, h = n +:+ b.
Proof.
  revert h. induction n as [|c n IH]; intros h.
  { split; [intros _; by exists h|intros _; by destruct h]. }
  destruct h as [|c' h].
  { split; [intros H; discriminate H|].
    intros [b Hb]. rewrite append_cons in Hb. discriminate Hb. }
  change (String.prefix (String c n) (String c' h))
    with (if Ascii.ascii_dec c c' then String.prefix n h else false).
  destruct (Ascii.ascii_dec c c') as [->|Hne].
  - rewrite IH. split; intros [b Hb]; exists b.
    + by rewrite append_cons, Hb.
    + rewrite append_cons in Hb. congruence.
  - split; [intros H; discriminate H|].
    intros [b Hb]. rewrite append_cons in Hb. congruence.
Qed.

Lemma str_contains_substring (k s : string) :
  str_contains k s = true ↔ substring_of k s.
Proof.
  unfold substring_of. induction s as [|c s IH]; cbn [str_contains].
  - rewrite orb_false_r, prefix_app. split.
    + intros [b Hb]. by exists EmptyString, b.
    + intros (a & b & Hab). destruct a as [|c a].
      * exists b. by rewrite append_nil in Hab.
      * rewrite append_cons in Hab. discriminate Hab.
  - rewrite orb_true_iff, prefix_app, IH. split.
    + intros [[b Hb]|(a & b & Hab)].
      * by exists EmptyString, b.
      * exists (String c a), b. by rewrite append_cons, Hab.
    + intros (a & b & Hab). destruct a as [|c' a].
      * left. exists b. by rewrite append_nil in Hab.
      * right. exists a, b. rewrite append_cons in Hab. congruence.
Qed.

(** X11: a body that is a JSON string is tested with Python's substring
    [in].  When [name], [score] and [date] all occur in the text the
    handler goes on to index the string and fails with a [TypeError];
    when one of them does not occur the answer is 400 "Invalid data!".
    Nothing is stored either way. *)
Theorem add_score_text_body (s : string) (st : store) :
  (substring_of "name" s ∧ substring_of "score" s ∧ substring_of "date" s →
   post_leaderboard (JStr s) st = (ServerError TypeError, st))
  ∧ (¬ (substring_of "name" s ∧ substring_of "score" s ∧ substring_of "date" s) →
     post_leaderboard (JStr s) st
       = (Replied (Reply 400 (jsonify_error "Invalid data!")), st)).
Proof.
  unfold post_leaderboard, dispatch. rewrite add_score_text. unfold names_in.
  rewrite <- !str_contains_substring.
  destruct (str_contains "name" s), (str_contains "score" s),
    (str_contains "date" s); cbn [andb]; split; intros H; try done;
    exfalso; try (by apply H); by destruct H as (? & ? & ?).
Qed.

Lemma add_score_text_body_witness :
  post_leaderboard (JStr "my name, my score, the date") three_scores
  = (ServerError TypeError, three_scores).
Proof.
  apply (add_score_text_body "my name, my score, the date" three_scores).
  split; [by exists "my ", ", my score, the date"|].
  split; [by exists "my name, my ", ", the date"|].
  by exists "my name, my score, the ", "".
Defined.

(** ** Array bodies *)

Lemma existsb_py_eq_str (k : string) (l : list json) :
  existsb (λ v, py_eq_str v k) l = true ↔ JStr k ∈ l.
Proof.
  rewrite existsb_exists. setoid_rewrite <- list_elem_of_In. split.
  - intros (v & Hv & Heq). destruct v; try discriminate Heq.
    unfold py_eq_str in Heq. apply bool_decide_eq_true in Heq. by subst.
  - intros Hk. exists (JStr k). split; [done|].
    unfold py_eq_str. by apply bool_decide_eq_true.
Qed.

(** X12: a body that is a JSON array is tested with Python's list [in].
    When the three strings [name], [score] and [date] are all elements of
    the array the handler goes on to index the list and fails with a
    [TypeError]; otherwise the answer is 400 "Invalid data!".  Nothing is
    stored either way. *)
Theorem add_score_array_body (l : list json) (st : store) :
  (JStr "name" ∈ l ∧ JStr "score" ∈ l ∧ JStr "date" ∈ l →
   post_leaderboard (JArr l) st = (ServerError TypeError, st))
  ∧ (¬ (JStr "name" ∈ l ∧ JStr "score" ∈ l ∧ JStr "date" ∈ l) →
     post_leaderboard (JArr l) st
       = (Replied (Reply 400 (jsonify_error "Invalid data!")), st)).
Proof.
  unfold post_leaderboard, dispatch. rewrite add_score_array. unfold names_in.
  rewrite <- !existsb_py_eq_str.
  destruct (existsb (λ v, py_eq_str v "name") l),
    (existsb (λ v, py_eq_str v "score") l),
    (existsb (λ v, py_eq_str v "date") l); cbn [andb]; split; intros H; try done;
    exfalso; try (by apply H); by destruct H as (? & ? & ?).
Qed.

Lemma add_score_array_body_witness :
  post_leaderboard (JArr [JStr "date"; JInt 5; JStr "name"]) three_scores
  = (Replied (Reply 400 (jsonify_error "Invalid data!")), three_scores).
Proof.
  apply (add_score_array_body [JStr "date"; JInt 5; JStr "name"] three_scores).
  intros (_ & Hscore & _).
  rewrite !elem_of_cons, elem_of_nil in Hscore.
  destruct Hscore as [H|[H|[H|[]]]]; discriminate H.
Defined.

(** ** Configuration *)

(** X13: debug mode is on by default and is switched off by any value of
    [DEBUG] other than the exact text [True]: the comparison is
    case-sensitive, so [true], [1] or the empty text all disable it. *)
Theorem debug_unless_not_True (env : gmap string string) :
  (debug env = true ↔ env !! "DEBUG" = None ∨ env !! "DEBUG" = Some "True")
  ∧ (∀ v, env !! "DEBUG" = Some v → v ≠ "True" → debug env = false)
  ∧ debug (<["DEBUG" := "true"]> env) = false
  ∧ debug (delete "DEBUG" env) = true.
Proof.
  unfold debug, getenv. split; [|split; [|split]].
  - rewrite bool_decide_eq_true. destruct (env !! "DEBUG") as [v|]; cbn.
    + split; [intros ->; by right|]. intros [H|H]; congruence.
    + split; [by left|done].
  - intros v -> Hv. cbn. by apply bool_decide_eq_false_2.
  - by rewrite lookup_insert_eq.
  - by rewrite lookup_delete_eq.
Qed.
